(** * The [build] command of preset-umi ([commands/build.ts])

    A shallow embedding of the command's [fn]: an async function that
    threads hook dispatches ([api.applyPlugins]), collaborator calls and
    file-system effects in a fixed order.  It is modelled as a state and
    error monad whose state is the trace of performed operations (each
    with its outcome) and the files on disk. *)

From Stdlib Require Import String Ascii List Bool Arith ZArith Lia.
Import ListNotations.
Open Scope string_scope.

(** ** JavaScript values, as far as the command inspects them *)

Inductive jsval : Type :=
| JUndef
| JNull
| JBool (b : bool)
| JNum (z : Z)
| JStr (s : string).

(** Truthiness of a value ([if (x)], [!!x], [x && y], [x || y]). *)
Definition truthy (v : jsval) : bool :=
  match v with
  | JUndef | JNull => false
  | JBool b => b
  | JNum z => negb (Z.eqb z 0)
  | JStr s => negb (String.eqb s "")
  end.

(** [a || b] *)
Definition js_or (a b : jsval) : jsval := if truthy a then a else b.

(** [a || b] on strings (the output-path defaults). *)
Definition str_or (a b : string) : string := if String.eqb a "" then b else a.

(** ** Semantic versions ([semver.gte]) *)

Inductive pre_id : Type :=
| PreNum (n : nat)
| PreStr (s : string).

Record semver : Type := mk_semver {
  major : nat;
  minor : nat;
  patch : nat;
  prerelease : list pre_id
}.

(** [compareIdentifiers] of node-semver: numeric identifiers sort
    before alphanumeric ones. *)
Definition compareIdentifiers (a b : pre_id) : comparison :=
  match a, b with
  | PreNum x, PreNum y => Nat.compare x y
  | PreNum _, PreStr _ => Lt
  | PreStr _, PreNum _ => Gt
  | PreStr x, PreStr y => String.compare x y
  end.

Definition pre_id_eqb (a b : pre_id) : bool :=
  match a, b with
  | PreNum x, PreNum y => Nat.eqb x y
  | PreStr x, PreStr y => String.eqb x y
  | _, _ => false
  end.

(** [SemVer.prototype.compareMain] *)
Definition compareMain (v w : semver) : comparison :=
  match Nat.compare (major v) (major w) with
  | Eq =>
      match Nat.compare (minor v) (minor w) with
      | Eq => Nat.compare (patch v) (patch w)
      | c => c
      end
  | c => c
  end.

(** The identifier loop of [SemVer.prototype.comparePre]. *)
Fixpoint comparePreLoop (a b : list pre_id) : comparison :=
  match a, b with
  | [], [] => Eq
  | _ :: _, [] => Gt
  | [], _ :: _ => Lt
  | x :: a', y :: b' =>
      if pre_id_eqb x y then comparePreLoop a' b' else compareIdentifiers x y
  end.

(** [SemVer.prototype.comparePre]: a version with a prerelease sorts
    before the same version without one. *)
Definition comparePre (v w : semver) : comparison :=
  match prerelease v, prerelease w with
  | _ :: _, [] => Lt
  | [], _ :: _ => Gt
  | [], [] => Eq
  | a, b => comparePreLoop a b
  end.

(** [SemVer.prototype.compare] *)
Definition semver_compare (v w : semver) : comparison :=
  match compareMain v w with
  | Eq => comparePre v w
  | c => c
  end.

(** [semver.gte(v, w)] *)
Definition semver_gte (v w : semver) : bool :=
  match semver_compare v w with
  | Lt => false
  | _ => true
  end.

Definition v17_0_0 : semver := mk_semver 17 0 0 [].

(** [shouldUseAutomaticRuntime = api.appData.react?.version &&
    semver.gte(api.appData.react.version, '17.0.0')].  The detected
    version is the [version] field of react's package.json, a valid
    semantic version; [None] is an absent react or version. *)
Definition shouldUseAutomaticRuntime (react : option semver) : bool :=
  match react with
  | Some v => semver_gte v v17_0_0
  | None => false
  end.

Definition react_runtime (react : option semver) : string :=
  if shouldUseAutomaticRuntime react then "automatic" else "classic".

(** ** Data handled by the command *)

(** [api.config]: the fields the command reads.  [c_outputPath = None]
    means the key is absent, so that [...api.config] does not override
    the default output path. *)
Record Config : Type := mk_config {
  c_vite : jsval;
  c_mako : jsval;
  c_mpa : jsval;
  c_esm : jsval;
  c_publicPath : jsval;
  c_outputPath : option string
}.

(** [opts.config = { outputPath: ..., ...api.config }] *)
Record OptsConfig : Type := mk_opts_config {
  oc_outputPath : string;
  oc_vite : jsval;
  oc_mako : jsval;
  oc_mpa : jsval;
  oc_esm : jsval;
  oc_publicPath : jsval
}.

(** The entry map ([{ umi: join(absTmpPath, 'umi.ts') }]). *)
Definition Entry := list (string * string).

(** The result of [getBabelOpts]. *)
Record BabelOpts : Type := mk_babel_opts {
  babelPreset : jsval;
  beforeBabelPlugins : list jsval;
  beforeBabelPresets : list jsval;
  extraBabelPlugins : list jsval;
  extraBabelPresets : list jsval
}.

Inductive exn : Type :=
| ETypeError (msg : string)
| EThrown (v : jsval).

Inductive res (A : Type) : Type :=
| Ok (a : A)
| Err (e : exn).
Arguments Ok {A} a.
Arguments Err {A} e.

Record HtmlFile : Type := mk_html_file {
  hf_path : string;
  hf_content : string
}.

(** A config-mutation closure handed to the backend:
    [async (memo, args) => ...]. *)
Definition closure := jsval -> jsval -> res jsval.

(** The options object composed for the bundler backend.  The optional
    fields are the keys added by the per-backend spread; [None] means
    the key is absent. *)
Record Opts : Type := mk_opts {
  o_react_runtime : string;
  o_config : OptsConfig;
  o_cwd : string;
  o_entry : Entry;
  o_modifyViteConfig : option closure;
  o_babelPreset : option jsval;
  o_chainWebpack : option closure;
  o_modifyWebpackConfig : option closure;
  o_beforeBabelPlugins : list jsval;
  o_beforeBabelPresets : list jsval;
  o_extraBabelPlugins : list jsval;
  o_extraBabelPresets : list jsval;
  o_onBuildComplete : jsval -> res unit;
  o_clean : bool;
  o_htmlFiles : list HtmlFile
}.

(** The files on disk: paths and contents, the latest binding first. *)
Definition Disk := list (string * string).

(** A bundler backend: its [build] entry point, with its result and its
    effect on the disk (cleaning the output folder, since [clean: true],
    and emitting the bundles), whether [build] returns or throws; both
    are opaque here. *)
Record Bundler : Type := mk_bundler {
  build : Opts -> res jsval;
  build_disk : Opts -> Disk -> Disk
}.

(** A [{ src }] entry of the markup arguments. *)
Record Asset : Type := mk_asset { src : string }.

(** The markup arguments ([getMarkupArgs] and [finalMarkUpArgs]). *)
Record MarkupArgs : Type := mk_markup_args {
  ma_styles : list Asset;
  ma_scripts : list Asset;
  ma_esmScript : jsval;
  ma_path : string
}.

(** The asset map of [getAssetsMap]: urls per logical bundle name. *)
Definition AssetsMap := list (string * list string).

Fixpoint assets_lookup (k : string) (m : AssetsMap) : option (list string) :=
  match m with
  | [] => None
  | (k', v) :: m' => if String.eqb k k' then Some v else assets_lookup k m'
  end.

Definition SizeMap := list (string * nat).

(** [api]: the inputs of the command.  [appData.react] is the detected
    react version; [appData_bundler] is [api.appData.bundler]. *)
Record Api : Type := mk_api {
  umi_version : string;
  absTmpPath : string;
  absOutputPath : string;
  pkg : jsval;
  react : option semver;
  userConfig_outputPath : string;
  config : Config;
  cwd : string;
  appData_bundler : jsval;
  args_vite : jsval
}.

(** The arguments of the hooks that carry structured arguments. *)
Record GenerateArgs : Type := mk_generate_args {
  ga_files : option (list string);   (* [None] is [null] *)
  ga_isFirstTime : bool
}.

(** [IOnGenerateFiles]: [files] is optional ([None] when omitted). *)
Record IOnGenerateFiles : Type := mk_on_generate_files {
  og_files : option (list string);
  og_isFirstTime : bool
}.

(** What a hook dispatch was called with. *)
Inductive payload : Type :=
| PCheckPkg (origin current : jsval)
| PGenerate (args : GenerateArgs)
| PEntry (initial : Entry)
| PBeforeCompiler (compiler : jsval) (o : Opts)
| PUniBundlerOpts (initial : Opts) (bundler : jsval)
| PUniBundler (bundler : jsval) (o : Opts)
| PExportHTML (initial : list HtmlFile) (markupArgs : MarkupArgs)
| PHtmlComplete (args : Opts).

(** ** Hook registry

    The registered handlers, per hook key, in registration order.
    Handlers are plugin functions; they may fail (throw), and their own
    effects are not part of the command's trace.  [h_disk key payload]
    is what the handlers of a dispatch do to the disk (an
    [onGenerateFiles] plugin writing files under [absTmpPath], for
    instance), whether the dispatch returns or throws; a dispatch with no
    handler does nothing to it. *)
Record Registry : Type := mk_registry {
  h_onCheckPkgJSON : list ((jsval * jsval) -> res unit);
  h_onGenerateFiles : list (GenerateArgs -> res unit);
  h_chainWebpack : list (jsval -> jsval -> res jsval);
  h_modifyWebpackConfig : list (jsval -> jsval -> res jsval);
  h_modifyViteConfig : list (jsval -> jsval -> res jsval);
  h_modifyEntry : list (Entry -> jsval -> res Entry);
  h_onBuildComplete : list (jsval -> res unit);
  h_onBeforeCompiler : list ((jsval * Opts) -> res unit);
  h_modifyUniBundlerOpts : list (Opts -> jsval -> res Opts);
  h_modifyUniBundler : list (option Bundler -> (jsval * Opts) -> res (option Bundler));
  h_modifyExportHTMLFiles : list (list HtmlFile -> MarkupArgs -> res (list HtmlFile));
  h_onBuildHtmlComplete : list (Opts -> res unit);
  h_disk : string -> payload -> Disk -> Disk
}.

Definition empty_registry : Registry :=
  mk_registry [] [] [] [] [] [] [] [] [] [] [] [] (fun _ _ d => d).

(** ** Hook dispatcher

    Modelled from the spec: [api.applyPlugins] lives in [@umijs/core],
    outside this source.  MODIFY folds the handlers over the accumulator
    in registration order and returns [initialValue] unchanged when no
    handler is registered; EVENT runs the handlers in order for their
    effects; a failing handler aborts the dispatch and its failure
    propagates.  A key without an explicit [type] takes the mode of its
    prefix ([modify...] MODIFY, [on...] EVENT); a MODIFY dispatch
    without [initialValue] starts from [undefined]. *)
Fixpoint modify_fold {A B : Type} (hs : list (A -> B -> res A)) (acc : A) (args : B)
  : res A :=
  match hs with
  | [] => Ok acc
  | h :: hs' =>
      match h acc args with
      | Ok acc' => modify_fold hs' acc' args
      | Err e => Err e
      end
  end.

Fixpoint event_fold {B : Type} (hs : list (B -> res unit)) (args : B) : res unit :=
  match hs with
  | [] => Ok tt
  | h :: hs' =>
      match h args with
      | Ok _ => event_fold hs' args
      | Err e => Err e
      end
  end.

(** ** Collaborators (external to the command) *)
Record Env : Type := mk_env {
  getBabelOpts : res BabelOpts;
  getAssetsMap : jsval -> jsval -> res AssetsMap;   (* stats, publicPath *)
  getMarkupArgs : res MarkupArgs;
  getMarkup : MarkupArgs -> res string;
  measureFileSizesBeforeBuild : string -> res SizeMap;
  printFileSizesAfterBuild : jsval -> SizeMap -> string -> res unit;
  path_join : string -> string -> string;
  path_resolve : string -> string -> string;
  path_dirname : string -> string;
  DEFAULT_OUTPUT_PATH : string;
  fs_mkdirp : string -> res unit;             (* [fsExtra.mkdirpSync] *)
  fs_write : string -> string -> res unit;    (* [writeFileSync] *)
  rimraf_sync : string -> res unit;           (* [rimraf.sync]: returns or throws *)
  rimraf_partial : string -> Disk -> Disk     (* what a throwing [rimraf.sync] leaves *)
}.

(** ** Trace, disk and the command monad *)

(** The operations the command performs, in the order it performs them. *)
Inductive op : Type :=
| OpLog (msg : string)
| OpRimraf (p : string)
| OpApply (key : string) (p : payload)
| OpCall (name : string)
| OpBuild (o : Opts)
| OpMeasure (p : string)
| OpReport (stats : jsval) (previousSizeMap : SizeMap) (buildFolder : string)
| OpMkdirp (p : string)
| OpWrite (p : string) (content : string).

(** A performed operation and its outcome ([None]: it returned). *)
Record event : Type := mk_event {
  ev_op : op;
  ev_outcome : option exn
}.

Record St : Type := mk_st {
  trace : list event;
  disk : Disk
}.

Fixpoint disk_get (p : string) (d : Disk) : option string :=
  match d with
  | [] => None
  | (q, c) :: d' => if String.eqb p q then Some c else disk_get p d'
  end.

Definition disk_write (p c : string) (d : Disk) : Disk := (p, c) :: d.

Fixpoint str_prefix (a b : string) : bool :=
  match a, b with
  | EmptyString, _ => true
  | String x a', String y b' => Ascii.eqb x y && str_prefix a' b'
  | String _ _, EmptyString => false
  end.

(** [p] is [dir] itself or lies below it. *)
Definition under (dir p : string) : bool :=
  String.eqb p dir || str_prefix (dir ++ "/") p.

(** [rimraf.sync(dir)] *)
Definition rimraf_disk (dir : string) (d : Disk) : Disk :=
  filter (fun qc => negb (under dir (fst qc))) d.

Definition M (A : Type) : Type := St -> res A * St.

Definition ret {A : Type} (a : A) : M A := fun s => (Ok a, s).

Definition bind {A B : Type} (m : M A) (k : A -> M B) : M B :=
  fun s =>
    match m s with
    | (Ok a, s') => k a s'
    | (Err e, s') => (Err e, s')
    end.

Notation "x <- m ;; k" := (bind m (fun x => k))
  (at level 61, m at next level, right associativity).
Notation "m ;; k" := (bind m (fun _ => k))
  (at level 61, right associativity).

(** A primitive operation: it returns or throws ([r]); its effect on
    the disk is [upd_ok] when it returns and [upd_err] when it throws.
    Either way it is recorded. *)
Definition prim_eff {A : Type} (o : op) (r : res A) (upd_ok upd_err : Disk -> Disk) : M A :=
  fun s =>
    match r with
    | Ok a => (Ok a, mk_st (trace s ++ [mk_event o None]) (upd_ok (disk s)))
    | Err e => (Err e, mk_st (trace s ++ [mk_event o (Some e)]) (upd_err (disk s)))
    end.

(** An operation that leaves the disk as it was when it throws. *)
Abbreviation prim o r upd := (prim_eff o r upd (fun d : Disk => d)).

Definition log (msg : string) : M unit := prim (OpLog msg) (Ok tt) (fun d => d).

(** ** The command *)

Section Build.

Variable reg : Registry.
Variable env : Env.
Variable api : Api.

(** The disk effect of a dispatch: none without handlers, the
    plugins' otherwise. *)
Definition dispatch_disk {H : Type} (key : string) (pl : payload) (hs : list H) : Disk -> Disk :=
  match hs with
  | [] => fun d => d
  | _ :: _ => h_disk reg key pl
  end.

(** [await api.applyPlugins({ key, initialValue, args })], MODIFY. *)
Definition applyModify {A B : Type} (key : string) (pl : payload)
    (hs : list (A -> B -> res A)) (initialValue : A) (args : B) : M A :=
  prim_eff (OpApply key pl) (modify_fold hs initialValue args)
    (dispatch_disk key pl hs) (dispatch_disk key pl hs).

(** [await api.applyPlugins({ key, args })], EVENT. *)
Definition applyEvent {B : Type} (key : string) (pl : payload)
    (hs : list (B -> res unit)) (args : B) : M unit :=
  prim_eff (OpApply key pl) (event_fold hs args)
    (dispatch_disk key pl hs) (dispatch_disk key pl hs).

(** [generate]: [files: opts.files || null] (an omitted list is
    [undefined], hence [null]; an array is always truthy). *)
Definition generate (opts : IOnGenerateFiles) : M unit :=
  let args := mk_generate_args (og_files opts) (og_isFirstTime opts) in
  applyEvent "onGenerateFiles" (PGenerate args) (h_onGenerateFiles reg) args.

(** The closures handed to the backend; they re-enter the dispatcher. *)
Definition chainWebpack : closure := fun memo args =>
  match modify_fold (h_chainWebpack reg) memo args with
  | Ok _ => Ok JUndef
  | Err e => Err e
  end.

Definition modifyWebpackConfig : closure := fun memo args =>
  modify_fold (h_modifyWebpackConfig reg) memo args.

Definition modifyViteConfig : closure := fun memo args =>
  modify_fold (h_modifyViteConfig reg) memo args.

(** [async onBuildComplete(opts)] ([printMemoryUsage] only logs). *)
Definition onBuildComplete (o : jsval) : res unit :=
  event_fold (h_onBuildComplete reg) o.

(** The options literal [let opts = { ... }]. *)
Definition compose_opts (bo : BabelOpts) (entry : Entry) : Opts :=
  let cfg := config api in
  let vite := truthy (c_vite cfg) in
  mk_opts
    (react_runtime (react api))
    (mk_opts_config
       (match c_outputPath cfg with
        | Some p => p
        | None => str_or (userConfig_outputPath api) "dist"
        end)
       (c_vite cfg) (c_mako cfg) (c_mpa cfg) (c_esm cfg) (c_publicPath cfg))
    (cwd api)
    entry
    (if vite then Some modifyViteConfig else None)
    (if vite then None else Some (babelPreset bo))
    (if vite then None else Some chainWebpack)
    (if vite then None else Some modifyWebpackConfig)
    (beforeBabelPlugins bo)
    (beforeBabelPresets bo)
    (extraBabelPlugins bo)
    (extraBabelPresets bo)
    onBuildComplete
    true
    [].

(** The size report, run when neither [vite] nor [mako] is configured. *)
Definition measure_stage (opts : Opts) (stats : jsval) : M unit :=
  if negb (truthy (c_vite (config api))) && negb (truthy (c_mako (config api))) then
    let absOutputPath' :=
      path_resolve env (o_cwd opts)
        (str_or (oc_outputPath (o_config opts)) (DEFAULT_OUTPUT_PATH env)) in
    previousFileSizes <-
      prim (OpMeasure absOutputPath')
        (measureFileSizesBeforeBuild env absOutputPath') (fun d => d) ;;
    log "" ;;
    log "File sizes after gzip:\n" ;;
    prim (OpReport stats previousFileSizes absOutputPath')
      (printFileSizesAfterBuild env stats previousFileSizes absOutputPath') (fun d => d)
  else ret tt.

Definition asset_urls (k : string) (assetsMap : AssetsMap) : list string :=
  match assets_lookup k assetsMap with
  | Some l => l
  | None => []
  end.

(** [finalMarkUpArgs] *)
Definition finalMarkUpArgs (opts : Opts) (assetsMap : AssetsMap) (args : MarkupArgs)
    (vite : jsval) : MarkupArgs :=
  let cvite := truthy (c_vite (config api)) in
  mk_markup_args
    (ma_styles args ++
       (if cvite then [] else map mk_asset (asset_urls "umi.css" assetsMap)))
    ((if cvite then [] else map mk_asset (asset_urls "umi.js" assetsMap)) ++
       ma_scripts args)
    (js_or (JBool (truthy (oc_esm (o_config opts)))) vite)
    "/".

(** [htmlFiles.forEach(({ path, content }) => { ... })] *)
Fixpoint write_html_files (files : list HtmlFile) : M unit :=
  match files with
  | [] => ret tt
  | f :: files' =>
      let absPath := path_resolve env (absOutputPath api) (hf_path f) in
      prim (OpMkdirp (path_dirname env absPath))
        (fs_mkdirp env (path_dirname env absPath)) (fun d => d) ;;
      prim (OpWrite absPath (hf_content f))
        (fs_write env absPath (hf_content f)) (disk_write absPath (hf_content f)) ;;
      log ("Build " ++ hf_path f) ;;
      write_html_files files'
  end.

(** The [if (!api.config.mpa) { ... }] block; its value is [htmlFiles]. *)
Definition html_stage (opts : Opts) (stats : jsval) : M (list HtmlFile) :=
  if negb (truthy (c_mpa (config api))) then
    assetsMap <-
      (if truthy (c_vite (config api)) then ret []
       else prim (OpCall "getAssetsMap")
              (getAssetsMap env stats (c_publicPath (config api))) (fun d => d)) ;;
    let vite := args_vite api in
    args <- prim (OpCall "getMarkupArgs") (getMarkupArgs env) (fun d => d) ;;
    let final := finalMarkUpArgs opts assetsMap args vite in
    content <- prim (OpCall "getMarkup") (getMarkup env final) (fun d => d) ;;
    let initial := [mk_html_file "index.html" content] in
    htmlFiles <-
      applyModify "modifyExportHTMLFiles" (PExportHTML initial final)
        (h_modifyExportHTMLFiles reg) initial final ;;
    write_html_files htmlFiles ;;
    ret htmlFiles
  else ret [].

Definition set_htmlFiles (o : Opts) (files : list HtmlFile) : Opts :=
  mk_opts (o_react_runtime o) (o_config o) (o_cwd o) (o_entry o)
    (o_modifyViteConfig o) (o_babelPreset o) (o_chainWebpack o)
    (o_modifyWebpackConfig o) (o_beforeBabelPlugins o) (o_beforeBabelPresets o)
    (o_extraBabelPlugins o) (o_extraBabelPresets o) (o_onBuildComplete o)
    (o_clean o) files.

Definition undefined_build_error : exn :=
  ETypeError "Cannot read properties of undefined (reading 'build')".

(** The backend's effect on the disk; [undefined.build] throws before
    doing anything. *)
Definition bundler_disk (bundler : option Bundler) (opts : Opts) : Disk -> Disk :=
  match bundler with
  | Some b => build_disk b opts
  | None => fun d => d
  end.

(** The command's [fn]. *)
Definition fn : M unit :=
  log ("Umi v" ++ umi_version api) ;;
  prim_eff (OpRimraf (absTmpPath api)) (rimraf_sync env (absTmpPath api))
    (rimraf_disk (absTmpPath api)) (rimraf_partial env (absTmpPath api)) ;;
  applyEvent "onCheckPkgJSON" (PCheckPkg JNull (pkg api))
    (h_onCheckPkgJSON reg) (JNull, pkg api) ;;
  generate (mk_on_generate_files None true) ;;
  bo <- prim (OpCall "getBabelOpts") (getBabelOpts env) (fun d => d) ;;
  let initialEntry := [("umi", path_join env (absTmpPath api) "umi.ts")] in
  entry <- applyModify "modifyEntry" (PEntry initialEntry)
             (h_modifyEntry reg) initialEntry JUndef ;;
  let opts0 := compose_opts bo entry in
  applyEvent "onBeforeCompiler" (PBeforeCompiler (appData_bundler api) opts0)
    (h_onBeforeCompiler reg) (appData_bundler api, opts0) ;;
  opts <- applyModify "modifyUniBundlerOpts" (PUniBundlerOpts opts0 (appData_bundler api))
            (h_modifyUniBundlerOpts reg) opts0 (appData_bundler api) ;;
  bundler <- applyModify "modifyUniBundler" (PUniBundler (appData_bundler api) opts)
               (h_modifyUniBundler reg) None (appData_bundler api, opts) ;;
  stats <- prim_eff (OpBuild opts)
             (match bundler with
              | Some b => build b opts
              | None => Err undefined_build_error
              end)
             (bundler_disk bundler opts) (bundler_disk bundler opts) ;;
  measure_stage opts stats ;;
  htmlFiles <- html_stage opts stats ;;
  applyEvent "onBuildHtmlComplete" (PHtmlComplete (set_htmlFiles opts htmlFiles))
    (h_onBuildHtmlComplete reg) (set_htmlFiles opts htmlFiles).

End Build.

(** A run of the command from an empty trace and a given disk. *)
Definition run (reg : Registry) (env : Env) (api : Api) (d : Disk) : res unit * St :=
  fn reg env api (mk_st [] d).

(** ** Concrete inputs *)

Definition str_dirname (p : string) : string :=
  let fix drop_seg (l : list Ascii.ascii) : list Ascii.ascii :=
    match l with
    | [] => []
    | c :: l' => if Ascii.eqb c "/"%char then l' else drop_seg l'
    end in
  string_of_list_ascii (rev (drop_seg (rev (list_ascii_of_string p)))).

Definition env0 : Env :=
  mk_env
    (Ok (mk_babel_opts (JStr "babel-preset-umi") [] [] [] []))
    (fun _ _ => Ok [("umi.js", ["/umi.js"]); ("umi.css", ["/umi.css"])])
    (Ok (mk_markup_args [] [] JUndef "/"))
    (fun _ => Ok "<html></html>")
    (fun _ => Ok [])
    (fun _ _ _ => Ok tt)
    (fun a b => a ++ "/" ++ b)
    (fun a b => a ++ "/" ++ b)
    str_dirname
    "dist"
    (fun _ => Ok tt)
    (fun _ _ => Ok tt)
    (fun _ => Ok tt)
    (fun _ d => d).

Definition config_plain : Config := mk_config JUndef JUndef JUndef JUndef JUndef None.

Definition api_with (cfg : Config) (r : option semver) (vite : jsval) : Api :=
  mk_api "4.0.0" "/app/src/.umi" "/app/dist" JUndef r "" cfg "/app"
    (JStr "webpack") vite.

Definition api17 : Api := api_with config_plain (Some (mk_semver 17 1 0 [])) JUndef.

(** A backend whose build emits [/app/dist/umi.js]. *)
Definition backend0 : Bundler :=
  mk_bundler (fun _ => Ok (JStr "stats")) (fun _ d => disk_write "/app/dist/umi.js" "js" d).

(** Only a [modifyUniBundler] handler, returning [b]. *)
Definition reg_bundler (b : Bundler) : Registry :=
  mk_registry [] [] [] [] [] [] [] [] [] [fun _ _ => Ok (Some b)] [] [] (fun _ _ d => d).

Definition outcomes (tr : list event) : list (option exn) := map ev_outcome tr.

Definition writes (tr : list event) : list (string * string) :=
  flat_map (fun ev => match ev with
                      | mk_event (OpWrite p c) None => [(p, c)]
                      | _ => []
                      end) tr.

Definition reports (tr : list event) : list string :=
  flat_map (fun ev => match ev with
                      | mk_event (OpReport _ _ folder) None => [folder]
                      | _ => []
                      end) tr.

(** The keys of the dispatches issued, in order. *)
Definition dispatched (tr : list event) : list string :=
  flat_map (fun ev => match ev_op ev with
                      | OpApply k _ => [k]
                      | _ => []
                      end) tr.

(** Observations on traces, and further fixtures. *)

Open Scope list_scope.

Definition reg_config_handlers : Registry :=
  mk_registry [] []
    [fun _ _ => Ok (JStr "new-config")]
    [fun _ _ => Ok (JStr "new-config")]
    [fun _ _ => Ok (JStr "new-config")]
    [] [] [] [] [] [] [] (fun _ _ d => d).

Definition is_dispatch (key : string) (ev : event) : bool :=
  match ev_op ev with
  | OpApply k _ => String.eqb k key
  | _ => false
  end.

Definition dispatches_of (key : string) (tr : list event) : list event :=
  filter (is_dispatch key) tr.

Definition appends {A : Type} (P : event -> Prop) (m : M A) : Prop :=
  forall s, exists l, trace (snd (m s)) = trace s ++ l /\ Forall P l.

(** The onGenerateFiles arguments issued by the command. *)
Definition generate_args_first : GenerateArgs := mk_generate_args None true.



Definition last_write (p : string) (tr : list event) : option string :=
  fold_left (fun acc ev =>
               match ev with
               | mk_event (OpWrite q c) None => if String.eqb q p then Some c else acc
               | _ => acc
               end) tr None.

(** Every path last written in [tr] holds that content in [d]. *)
Definition keeps_writes (tr : list event) (d : Disk) : Prop :=
  forall p c, last_write p tr = Some c -> disk_get p d = Some c.

Definition disk_inv (s : St) : Prop := keeps_writes (trace s) (disk s).

Definition keeps {A : Type} (m : M A) : Prop :=
  forall s, disk_inv s -> disk_inv (snd (m s)).

(** What a primitive may do to the disk outside the start of the
    command: a write stores its content, anything else leaves it. *)
Definition disk_effect (o : op) (upd : Disk -> Disk) : Prop :=
  match o with
  | OpWrite p c => forall d, upd d = disk_write p c d
  | OpRimraf _ => False
  | _ => forall d, upd d = d
  end.

Definition is_fs_or_log (ev : event) : bool :=
  match ev_op ev with
  | OpMkdirp _ | OpWrite _ _ | OpLog _ => true
  | _ => false
  end.


Definition op_name (o : op) : string :=
  match o with
  | OpLog _ => "log"
  | OpRimraf _ => "rimraf"
  | OpApply k _ => k
  | OpCall n => n
  | OpBuild _ => "build"
  | OpMeasure _ => "measureFileSizesBeforeBuild"
  | OpReport _ _ _ => "printFileSizesAfterBuild"
  | OpMkdirp _ => "mkdirp"
  | OpWrite _ _ => "writeFile"
  end.

Definition op_names (tr : list event) : list string := map (fun ev => op_name (ev_op ev)) tr.

Definition builds (tr : list event) : list Opts :=
  flat_map (fun ev => match ev with
                      | mk_event (OpBuild o) None => [o]
                      | _ => []
                      end) tr.

(** A [modifyUniBundlerOpts] handler that sets [opts.config.esm = true],
    next to a backend for [modifyUniBundler]. *)
Definition with_esm (o : Opts) : Opts :=
  let c := o_config o in
  mk_opts (o_react_runtime o)
    (mk_opts_config (oc_outputPath c) (oc_vite c) (oc_mako c) (oc_mpa c) (JBool true)
       (oc_publicPath c))
    (o_cwd o) (o_entry o) (o_modifyViteConfig o) (o_babelPreset o) (o_chainWebpack o)
    (o_modifyWebpackConfig o) (o_beforeBabelPlugins o) (o_beforeBabelPresets o)
    (o_extraBabelPlugins o) (o_extraBabelPresets o) (o_onBuildComplete o)
    (o_clean o) (o_htmlFiles o).

Definition reg_esm : Registry :=
  mk_registry [] [] [] [] [] [] [] [] [fun o _ => Ok (with_esm o)]
    [fun _ _ => Ok (Some backend0)] [] [] (fun _ _ d => d).

(** The markup arguments carried by the [modifyExportHTMLFiles] dispatches. *)
Definition export_markup_args (tr : list event) : list MarkupArgs :=
  flat_map (fun ev => match ev_op ev with
                      | OpApply _ (PExportHTML _ ma) => [ma]
                      | _ => []
                      end) tr.

(** The events of a write loop all of whose calls returned. *)
Fixpoint write_events (env : Env) (api : Api) (files : list HtmlFile) : list event :=
  match files with
  | [] => []
  | f :: files' =>
      let absPath := path_resolve env (absOutputPath api) (hf_path f) in
      mk_event (OpMkdirp (path_dirname env absPath)) None ::
      mk_event (OpWrite absPath (hf_content f)) None ::
      mk_event (OpLog ("Build " ++ hf_path f)) None ::
      write_events env api files'
  end.

(** Every [mkdirpSync] and [writeFileSync] of the loop returns. *)
Fixpoint files_ok (env : Env) (api : Api) (files : list HtmlFile) : Prop :=
  match files with
  | [] => True
  | f :: files' =>
      let absPath := path_resolve env (absOutputPath api) (hf_path f) in
      fs_mkdirp env (path_dirname env absPath) = Ok tt /\
      fs_write env absPath (hf_content f) = Ok tt /\
      files_ok env api files'
  end.

(** The disk after the loop's writes, in order. *)
Fixpoint write_disk (env : Env) (api : Api) (files : list HtmlFile) (d : Disk) : Disk :=
  match files with
  | [] => d
  | f :: files' =>
      write_disk env api files'
        (disk_write (path_resolve env (absOutputPath api) (hf_path f)) (hf_content f) d)
  end.

(** The payloads of the dispatches of one key. *)
Definition payloads_of (key : string) (tr : list event) : list payload :=
  flat_map (fun ev => match ev_op ev with
                      | OpApply k pl => if String.eqb k key then [pl] else []
                      | _ => []
                      end) tr.

(** The folder handed to the size measurement. *)
Definition measure_folder (env : Env) (opts : Opts) : string :=
  path_resolve env (o_cwd opts)
    (str_or (oc_outputPath (o_config opts)) (DEFAULT_OUTPUT_PATH env)).

Definition measure_events (env : Env) (api : Api) (opts : Opts) (stats : jsval)
    (sizes : SizeMap) : list event :=
  if negb (truthy (c_vite (config api))) && negb (truthy (c_mako (config api))) then
    [mk_event (OpMeasure (measure_folder env opts)) None;
     mk_event (OpLog "") None;
     mk_event (OpLog "File sizes after gzip:\n") None;
     mk_event (OpReport stats sizes (measure_folder env opts)) None]
  else [].

Definition html_events (env : Env) (api : Api) (final : MarkupArgs) (content : string)
    (files : list HtmlFile) : list event :=
  if negb (truthy (c_mpa (config api))) then
    (if truthy (c_vite (config api)) then [] else [mk_event (OpCall "getAssetsMap") None]) ++
    [mk_event (OpCall "getMarkupArgs") None;
     mk_event (OpCall "getMarkup") None;
     mk_event (OpApply "modifyExportHTMLFiles"
                 (PExportHTML [mk_html_file "index.html" content] final)) None] ++
    write_events env api files
  else [].

(** The trace of a run all of whose operations returned. *)
Definition ok_trace (env : Env) (api : Api) (entry0 : Entry) (opts0 opts : Opts)
    (stats : jsval) (sizes : SizeMap) (final : MarkupArgs) (content : string)
    (files : list HtmlFile) : list event :=
  [mk_event (OpLog ("Umi v" ++ umi_version api)) None;
   mk_event (OpRimraf (absTmpPath api)) None;
   mk_event (OpApply "onCheckPkgJSON" (PCheckPkg JNull (pkg api))) None;
   mk_event (OpApply "onGenerateFiles" (PGenerate (mk_generate_args None true))) None;
   mk_event (OpCall "getBabelOpts") None;
   mk_event (OpApply "modifyEntry" (PEntry entry0)) None;
   mk_event (OpApply "onBeforeCompiler" (PBeforeCompiler (appData_bundler api) opts0)) None;
   mk_event (OpApply "modifyUniBundlerOpts" (PUniBundlerOpts opts0 (appData_bundler api))) None;
   mk_event (OpApply "modifyUniBundler" (PUniBundler (appData_bundler api) opts)) None;
   mk_event (OpBuild opts) None] ++
  measure_events env api opts stats sizes ++
  html_events env api final content files ++
  [mk_event (OpApply "onBuildHtmlComplete" (PHtmlComplete (set_htmlFiles opts files))) None].

(** The folders handed to [measureFileSizesBeforeBuild]. *)
Definition measured (tr : list event) : list string :=
  flat_map (fun ev => match ev with
                      | mk_event (OpMeasure p) None => [p]
                      | _ => []
                      end) tr.


(** A [rimraf.sync] that throws [EACCES] and leaves the disk as it was. *)
Definition env_rimraf_fails : Env :=
  mk_env (getBabelOpts env0) (getAssetsMap env0) (getMarkupArgs env0) (getMarkup env0)
    (measureFileSizesBeforeBuild env0) (printFileSizesAfterBuild env0)
    (path_join env0) (path_resolve env0) (path_dirname env0) (DEFAULT_OUTPUT_PATH env0)
    (fs_mkdirp env0) (fs_write env0)
    (fun _ => Err (EThrown (JStr "EACCES"))) (fun _ d => d).

Definition three_files : list HtmlFile :=
  [mk_html_file "a.html" "A"; mk_html_file "b.html" "B"; mk_html_file "c.html" "C"].

Definition api_mpa : Api :=
  api_with (mk_config JUndef JUndef (JBool true) JUndef JUndef None)
    (Some (mk_semver 17 1 0 [])) JUndef.

Open Scope string_scope.

Example run_api17_backend0 :
  fst (run (reg_bundler backend0) env0 api17 []) = Ok tt /\
  writes (trace (snd (run (reg_bundler backend0) env0 api17 []))) =
    [("/app/dist/index.html", "<html></html>")].
Proof. split; vm_compute; reflexivity. Qed.

Example run_empty_registry :
  fst (run empty_registry env0 api17 []) = Err undefined_build_error.
Proof. vm_compute. reflexivity. Qed.

(** ** C1: the react runtime *)

Lemma semver_gte_17_iff (v : semver) :
  semver_gte v v17_0_0 = true <->
  17 < major v \/ (major v = 17 /\ (0 < minor v \/ 0 < patch v \/ prerelease v = [])).
Proof.
  destruct v as [ma mi pa pr].
  unfold semver_gte, semver_compare, compareMain, comparePre, v17_0_0; simpl.
  destruct (Nat.compare_spec ma 17) as [-> | Hlt | Hgt].
  - destruct (Nat.compare_spec mi 0) as [-> | Hlt | Hgt]; [| lia |].
    + destruct (Nat.compare_spec pa 0) as [-> | Hlt | Hgt]; [| lia |].
      * destruct pr; simpl; split; intros H; try discriminate; try lia;
          try reflexivity; intuition (try lia; try discriminate).
      * split; intros; [lia | reflexivity].
    + split; intros; [lia | reflexivity].
  - split; intros H; [discriminate | lia].
  - split; intros; [lia | reflexivity].
Qed.

(** C1: the react runtime placed in the composed options is [automatic]
    exactly when the detected version is [>= 17.0.0] (inclusive; a
    prerelease of 17.0.0 is below it), and [classic] otherwise or when
    no version is detected; 17.0.0 and 18.2.0 give automatic, 16.14.0
    gives classic. *)
Theorem C1_react_runtime (reg : Registry) (api : Api) (bo : BabelOpts) (entry : Entry) :
  o_react_runtime (compose_opts reg api bo entry) =
    match react api with
    | Some v => if semver_gte v v17_0_0 then "automatic" else "classic"
    | None => "classic"
    end /\
  (forall v, semver_gte v v17_0_0 = true <->
     17 < major v \/ (major v = 17 /\ (0 < minor v \/ 0 < patch v \/ prerelease v = []))) /\
  react_runtime (Some (mk_semver 17 0 0 [])) = "automatic" /\
  react_runtime (Some (mk_semver 18 2 0 [])) = "automatic" /\
  react_runtime (Some (mk_semver 16 14 0 [])) = "classic" /\
  react_runtime None = "classic".
Proof.
  split; [| split; [exact semver_gte_17_iff | repeat split]].
  unfold compose_opts, react_runtime, shouldUseAutomaticRuntime; simpl.
  destruct (react api); reflexivity.
Qed.

(** C5: outside the vite backend, the final scripts are the mapped
    [umi.js] urls followed by the supplied scripts, and the final styles
    are the supplied styles followed by the mapped [umi.css] urls. *)
Theorem C5_asset_merge_order (api : Api) (opts : Opts)
    (assetsMap : AssetsMap) (args : MarkupArgs) (vite : jsval) :
  truthy (c_vite (config api)) = false ->
  ma_scripts (finalMarkUpArgs api opts assetsMap args vite) =
    (map mk_asset (asset_urls "umi.js" assetsMap) ++ ma_scripts args)%list /\
  ma_styles (finalMarkUpArgs api opts assetsMap args vite) =
    (ma_styles args ++ map mk_asset (asset_urls "umi.css" assetsMap))%list.
Proof.
  intros Hv. unfold finalMarkUpArgs; simpl. rewrite Hv. split; reflexivity.
Qed.

Lemma C5_asset_merge_order_witness :
  truthy (c_vite (config api17)) = false /\
  ma_scripts (finalMarkUpArgs api17 (compose_opts empty_registry api17
                 (mk_babel_opts JUndef [] [] [] []) [])
                [("umi.js", ["a.js"]); ("umi.css", ["a.css"])]
                (mk_markup_args [mk_asset "b.css"] [mk_asset "b.js"] JUndef "/") JUndef) =
    [mk_asset "a.js"; mk_asset "b.js"] /\
  ma_styles (finalMarkUpArgs api17 (compose_opts empty_registry api17
                 (mk_babel_opts JUndef [] [] [] []) [])
                [("umi.js", ["a.js"]); ("umi.css", ["a.css"])]
                (mk_markup_args [mk_asset "b.css"] [mk_asset "b.js"] JUndef "/") JUndef) =
    [mk_asset "b.css"; mk_asset "a.css"].
Proof.
  split; [reflexivity |].
  destruct (C5_asset_merge_order api17
              (compose_opts empty_registry api17 (mk_babel_opts JUndef [] [] [] []) [])
              [("umi.js", ["a.js"]); ("umi.css", ["a.css"])]
              (mk_markup_args [mk_asset "b.css"] [mk_asset "b.js"] JUndef "/") JUndef
              eq_refl) as [Hs Ht].
  rewrite Hs, Ht. split; reflexivity.
Defined.

(** C6: with [vite] set the composed options carry [modifyViteConfig]
    and none of [babelPreset], [chainWebpack], [modifyWebpackConfig];
    with neither [vite] nor [mako] set they carry those three and no
    [modifyViteConfig]. *)
Theorem C6_backend_option_shape (reg : Registry) (api : Api) (bo : BabelOpts) (entry : Entry) :
  (truthy (c_vite (config api)) = true ->
   o_modifyViteConfig (compose_opts reg api bo entry) = Some (modifyViteConfig reg) /\
   o_babelPreset (compose_opts reg api bo entry) = None /\
   o_chainWebpack (compose_opts reg api bo entry) = None /\
   o_modifyWebpackConfig (compose_opts reg api bo entry) = None) /\
  (truthy (c_vite (config api)) = false -> truthy (c_mako (config api)) = false ->
   o_modifyViteConfig (compose_opts reg api bo entry) = None /\
   o_babelPreset (compose_opts reg api bo entry) = Some (babelPreset bo) /\
   o_chainWebpack (compose_opts reg api bo entry) = Some (chainWebpack reg) /\
   o_modifyWebpackConfig (compose_opts reg api bo entry) = Some (modifyWebpackConfig reg)).
Proof.
  unfold compose_opts; simpl.
  split; intros Hv; [| intros _]; rewrite Hv; repeat split.
Qed.

(** C10: for every registry, [memo] and [args], the [chainWebpack]
    closure awaits its MODIFY dispatch (seeded with [memo]) and returns
    [undefined], whatever accumulator the dispatch ends with, while
    [modifyWebpackConfig] and [modifyViteConfig] return the final
    accumulator of their own dispatch; a throwing dispatch makes each
    closure throw the same error. *)
Theorem C10_closure_results (reg : Registry) (memo args : jsval) :
  chainWebpack reg memo args =
    match modify_fold (h_chainWebpack reg) memo args with
    | Ok _ => Ok JUndef
    | Err e => Err e
    end /\
  modifyWebpackConfig reg memo args = modify_fold (h_modifyWebpackConfig reg) memo args /\
  modifyViteConfig reg memo args = modify_fold (h_modifyViteConfig reg) memo args.
Proof.
  unfold chainWebpack, modifyWebpackConfig, modifyViteConfig. repeat split.
Qed.

(** ** Reasoning about runs *)

Open Scope list_scope.

Lemma bind_prim {A B : Type} (o : op) (r : res A) (upd_ok upd_err : Disk -> Disk)
    (k : A -> M B) (s : St) :
  bind (prim_eff o r upd_ok upd_err) k s =
    match r with
    | Ok a => k a (mk_st (trace s ++ [mk_event o None]) (upd_ok (disk s)))
    | Err e => (Err e, mk_st (trace s ++ [mk_event o (Some e)]) (upd_err (disk s)))
    end.
Proof. unfold bind, prim_eff. destruct r; reflexivity. Qed.

(** *** Operations appended to the trace *)

Lemma appends_ret {A : Type} (P : event -> Prop) (a : A) : appends P (ret a).
Proof. intros s. exists []. rewrite app_nil_r. split; [reflexivity | constructor]. Qed.

Lemma appends_prim {A : Type} (P : event -> Prop) (o : op) (r : res A)
    (upd_ok upd_err : Disk -> Disk) :
  (forall out, P (mk_event o out)) -> appends P (prim_eff o r upd_ok upd_err).
Proof.
  intros HP s. unfold prim_eff. destruct r; simpl; eexists; (split; [reflexivity |]);
    repeat constructor; apply HP.
Qed.

Lemma appends_bind {A B : Type} (P : event -> Prop) (m : M A) (k : A -> M B) :
  appends P m -> (forall a, appends P (k a)) -> appends P (bind m k).
Proof.
  intros Hm Hk s. unfold bind. destruct (Hm s) as [l1 [H1 F1]].
  destruct (m s) as [[a | e] s1]; simpl in *.
  - destruct (Hk a s1) as [l2 [H2 F2]]. exists (l1 ++ l2).
    rewrite H2, H1, app_assoc. split; [reflexivity | apply Forall_app; auto].
  - exists l1. auto.
Qed.

Lemma appends_write_html_files (P : event -> Prop) (env : Env) (api : Api)
    (files : list HtmlFile) :
  (forall p c msg out,
     P (mk_event (OpMkdirp p) out) /\ P (mk_event (OpWrite p c) out) /\
     P (mk_event (OpLog msg) out)) ->
  appends P (write_html_files env api files).
Proof.
  intros HP. induction files as [| f files IH]; simpl.
  - apply appends_ret.
  - repeat (apply appends_bind; [| intros]); try exact IH;
      unfold log; apply appends_prim; intros out;
      first [ exact (proj1 (HP _ "" "" out))
            | exact (proj1 (proj2 (HP _ _ "" out)))
            | exact (proj2 (proj2 (HP "" "" _ out))) ].
Qed.

(** Walks a command term: binds, returns, primitives, conditionals and
    the named sub-commands; [prim_tac] discharges each primitive. *)
Ltac walk bindL retL primL writeL prim_tac :=
  repeat match goal with
  | |- _ (bind _ _) => apply bindL; [| intro; cbv beta]
  | |- _ (ret _) => apply retL
  | |- _ (prim_eff _ _ _ _) => apply primL; prim_tac
  | |- _ (write_html_files _ _ _) => apply writeL; prim_tac
  | |- _ (if ?b then _ else _) => destruct b
  | |- _ (log _) => unfold log
  | |- _ (applyModify _ _ _ _ _ _) => unfold applyModify
  | |- _ (applyEvent _ _ _ _ _) => unfold applyEvent
  | |- _ (generate _ _) => unfold generate
  | |- _ (measure_stage _ _ _ _) => unfold measure_stage
  | |- _ (html_stage _ _ _ _ _) => unfold html_stage
  | |- _ (let _ := _ in _) => cbv zeta
  end.

Ltac walk_appends :=
  walk appends_bind appends_ret appends_prim appends_write_html_files
    ltac:(intros; repeat split).

Lemma filter_all_false {X : Type} (f : X -> bool) (l : list X) :
  Forall (fun x => f x = false) l -> filter f l = [].
Proof. induction 1 as [| x l Hx _ IH]; simpl; [reflexivity | rewrite Hx; exact IH]. Qed.

(** C9 (as the code has it): when [rimraf.sync] and the pre-check
    return, the trace opens with the version log, the [rimraf.sync], the
    [onCheckPkgJSON] dispatch and, right after it, the one
    [onGenerateFiles] dispatch of the run, with [isFirstTime = true] and
    [files = null] ([opts.files || null] of an omitted list), not an
    empty list; when either throws, no [onGenerateFiles] dispatch is
    issued. *)
Theorem C9_generate_dispatch (reg : Registry) (env : Env) (api : Api) (d : Disk) :
  match rimraf_sync env (absTmpPath api), event_fold (h_onCheckPkgJSON reg) (JNull, pkg api) with
  | Ok _, Ok _ =>
      exists post : list event,
        trace (snd (run reg env api d)) =
          [mk_event (OpLog ("Umi v" ++ umi_version api)%string) None;
           mk_event (OpRimraf (absTmpPath api)) None;
           mk_event (OpApply "onCheckPkgJSON" (PCheckPkg JNull (pkg api))) None;
           mk_event (OpApply "onGenerateFiles" (PGenerate generate_args_first))
             (match event_fold (h_onGenerateFiles reg) generate_args_first with
              | Ok _ => None
              | Err e => Some e
              end)] ++ post /\
        dispatches_of "onGenerateFiles" post = []
  | _, _ => dispatches_of "onGenerateFiles" (trace (snd (run reg env api d))) = []
  end.
Proof.
  unfold run, fn, log, generate, applyEvent. cbv zeta. cbn [og_files og_isFirstTime].
  rewrite bind_prim. cbv beta iota.
  rewrite bind_prim. destruct (rimraf_sync env (absTmpPath api)) eqn:Hr; [| reflexivity].
  cbv beta iota.
  rewrite bind_prim. destruct (event_fold (h_onCheckPkgJSON reg) (JNull, pkg api)) eqn:Hc;
    [| reflexivity].
  cbv beta iota. rewrite bind_prim.
  unfold generate_args_first.
  destruct (event_fold (h_onGenerateFiles reg) (mk_generate_args None true)) eqn:Hg;
    [| eexists; split; [reflexivity | reflexivity]].
  cbv beta iota.
  match goal with
  | |- context [trace (snd (?m ?s))] =>
      assert (Hm : appends (fun ev => is_dispatch "onGenerateFiles" ev = false) m)
        by walk_appends;
      destruct (Hm s) as [l [-> Hl]]
  end.
  exists l. split; [reflexivity |].
  unfold dispatches_of. exact (filter_all_false _ _ Hl).
Qed.

(** *** Fail-fast runs: every operation returned except possibly the
    last one, whose failure is the command's failure *)







(** *** The disk keeps the last content written to each path *)

Lemma keeps_ret {A : Type} (a : A) : keeps (ret a).
Proof. intros s H. exact H. Qed.

Lemma last_write_snoc (p : string) (tr : list event) (ev : event) :
  last_write p (tr ++ [ev]) =
    match ev with
    | mk_event (OpWrite q c) None => if String.eqb q p then Some c else last_write p tr
    | _ => last_write p tr
    end.
Proof. unfold last_write. rewrite fold_left_app. reflexivity. Qed.

Lemma keeps_prim {A : Type} (o : op) (r : res A) (upd : Disk -> Disk) :
  disk_effect o upd -> keeps (prim o r upd).
Proof.
  intros Hu s H p c. unfold prim_eff.
  destruct r; simpl; rewrite last_write_snoc.
  - destruct o; simpl in Hu; try contradiction; rewrite Hu; try exact (H p c).
    destruct (String.eqb p0 p) eqn:Ep.
    + apply String.eqb_eq in Ep. subst p0. simpl. rewrite String.eqb_refl. exact id.
    + simpl. rewrite String.eqb_sym, Ep. exact (H p c).
  - destruct o; exact (H p c).
Qed.

Lemma keeps_bind {A B : Type} (m : M A) (k : A -> M B) :
  keeps m -> (forall a, keeps (k a)) -> keeps (bind m k).
Proof.
  intros Hm Hk s H. unfold bind. specialize (Hm s H).
  destruct (m s) as [[a | e] s1]; [exact (Hk a s1 Hm) | exact Hm].
Qed.

Lemma keeps_write_html_files (env : Env) (api : Api) (files : list HtmlFile) :
  True -> keeps (write_html_files env api files).
Proof.
  intros _. induction files as [| f files IH]; simpl.
  - apply keeps_ret.
  - unfold log.
    repeat (apply keeps_bind; [apply keeps_prim; cbn; intros; reflexivity | intros]). exact IH.
Qed.

Ltac walk_keeps :=
  walk keeps_bind keeps_ret keeps_prim keeps_write_html_files
    ltac:(first [exact I | cbn; intros; reflexivity]).

(** *** Stepping through one run *)

Lemma bind_assoc_s {A B C : Type} (m : M A) (k1 : A -> M B) (k2 : B -> M C) (s : St) :
  bind (bind m k1) k2 s = bind m (fun a => bind (k1 a) k2) s.
Proof. unfold bind. destruct (m s) as [[a | e] s1]; reflexivity. Qed.

Lemma bind_ret_s {A B : Type} (a : A) (k : A -> M B) (s : St) : bind (ret a) k s = k a s.
Proof. reflexivity. Qed.

Lemma bind_s {A B : Type} (m : M A) (k : A -> M B) (s : St) :
  bind m k s = match m s with (Ok a, s') => k a s' | (Err e, s') => (Err e, s') end.
Proof. reflexivity. Qed.

(** One step of a run [H : m s = (r, s')] at the head of [m]. *)
Ltac step_run H :=
  lazymatch type of H with
  | bind (prim_eff _ ?r _ _) _ _ = _ =>
      rewrite bind_prim in H;
      let r' := eval cbn in r in
      lazymatch r' with
      | Ok _ => change r with r' in H; cbv beta iota delta [trace disk] in H
      | _ => let E := fresh "E" in
             destruct r eqn:E; [cbv beta iota delta [trace disk] in H | injection H as <- <-]
      end
  | bind (bind _ _) _ _ = _ => rewrite bind_assoc_s in H
  | bind (ret _) _ _ = _ => rewrite bind_ret_s in H; cbv beta in H
  | bind (if ?b then _ else _) _ _ = _ =>
      let E := fresh "E" in destruct b eqn:E; cbv iota in H
  | bind (write_html_files _ _ (_ :: _)) _ _ = _ =>
      cbn [write_html_files] in H; unfold log in H
  | bind (write_html_files _ _ []) _ _ = _ =>
      cbn [write_html_files] in H
  | bind (write_html_files ?env ?api ?l) _ ?s = _ =>
      rewrite bind_s in H;
      let E := fresh "W" in
      destruct (write_html_files env api l s) as [[] ?] eqn:E;
        [cbv beta iota delta [trace disk] in H | injection H as <- <-]
  | prim_eff _ ?r _ _ _ = _ =>
      unfold prim_eff in H; let E := fresh "E" in destruct r eqn:E; injection H as <- <-
  | (if ?b then _ else _) _ = _ =>
      let E := fresh "E" in destruct b eqn:E; cbv iota in H
  | ret _ _ = _ => injection H as <- <-
  end.

Ltac unfold_run H :=
  unfold run, fn, html_stage, measure_stage, generate, log, applyEvent, applyModify in H;
  cbv zeta in H; cbn [og_files og_isFirstTime] in H.


(** Splits a membership in an explicit trace into its cases. *)
Ltac split_in H :=
  cbn [app In] in H;
  repeat match goal with
  | H : _ \/ _ |- _ => destruct H as [H | H]
  | H : In _ (_ ++ _) |- _ => apply in_app_or in H
  | H : In _ [] |- _ => destruct H
  | H : In _ (_ :: _) |- _ => destruct H as [H | H]
  | H : In ?ev ?l, F : Forall _ ?l |- _ =>
      rewrite Forall_forall in F; specialize (F _ H); discriminate F
  end; try discriminate; try contradiction.



(** ** Order of the build and the size measurement *)

(** C2 (code): on a run with neither [vite] nor [mako], the "previous"
    size snapshot handed to the reporter is taken after [bundler.build]
    has returned, although the call is commented "Measure files sizes
    before build" and named [measureFileSizesBeforeBuild]. *)
Theorem C2_measure_after_build :
  op_names (trace (snd (run (reg_bundler backend0) env0 api17 []))) =
    ["log"; "rimraf"; "onCheckPkgJSON"; "onGenerateFiles"; "getBabelOpts";
     "modifyEntry"; "onBeforeCompiler"; "modifyUniBundlerOpts"; "modifyUniBundler";
     "build"; "measureFileSizesBeforeBuild"; "log"; "log"; "printFileSizesAfterBuild";
     "getAssetsMap"; "getMarkupArgs"; "getMarkup"; "modifyExportHTMLFiles";
     "mkdirp"; "writeFile"; "log"; "onBuildHtmlComplete"] /\
  outcomes (trace (snd (run (reg_bundler backend0) env0 api17 []))) = repeat None 22.
Proof. split; vm_compute; reflexivity. Qed.

(** ** End-to-end run *)

(** C3 (claim as stated): with no handler on any key, no backend is
    resolved: [modifyUniBundler] yields [undefined] and the run throws at
    [bundler.build], writing no file and reporting no sizes. *)
Lemma C3_counterexample :
  ~ (fst (run empty_registry env0 api17 []) = Ok tt /\
     length (writes (trace (snd (run empty_registry env0 api17 [])))) = 1 /\
     length (reports (trace (snd (run empty_registry env0 api17 [])))) = 1).
Proof. vm_compute. intros [H _]. discriminate H. Qed.

(** C3 (as the code has it): the backend comes from the
    [modifyUniBundler] dispatch.  With one handler there supplying a
    backend whose [build] succeeds and no other handler, no [vite],
    [mako] or [mpa] flag, react 17.1.0 and collaborators that succeed
    ([rimraf.sync] included),
    the run completes, the options handed to [build] have the automatic
    runtime and the traditional-backend shape, exactly one file,
    [index.html] under the output path, is written, and the size report
    is printed once. *)
Theorem C3_end_to_end (env : Env) (b : Bundler) (api : Api) (d : Disk) (bo : BabelOpts)
    (am : AssetsMap) (ma : MarkupArgs) (html : string) (sizes : SizeMap) (stats : jsval) :
  truthy (c_vite (config api)) = false ->
  truthy (c_mako (config api)) = false ->
  truthy (c_mpa (config api)) = false ->
  react api = Some (mk_semver 17 1 0 []) ->
  rimraf_sync env (absTmpPath api) = Ok tt ->
  getBabelOpts env = Ok bo ->
  (forall st pp, getAssetsMap env st pp = Ok am) ->
  getMarkupArgs env = Ok ma ->
  (forall x, getMarkup env x = Ok html) ->
  (forall p, measureFileSizesBeforeBuild env p = Ok sizes) ->
  (forall st m p, printFileSizesAfterBuild env st m p = Ok tt) ->
  (forall p, fs_mkdirp env p = Ok tt) ->
  (forall p c, fs_write env p c = Ok tt) ->
  (forall o, build b o = Ok stats) ->
  fst (run (reg_bundler b) env api d) = Ok tt /\
  writes (trace (snd (run (reg_bundler b) env api d))) =
    [(path_resolve env (absOutputPath api) "index.html", html)] /\
  length (reports (trace (snd (run (reg_bundler b) env api d)))) = 1 /\
  (exists o, builds (trace (snd (run (reg_bundler b) env api d))) = [o] /\
     o_react_runtime o = "automatic" /\
     o_babelPreset o = Some (babelPreset bo) /\
     o_chainWebpack o = Some (chainWebpack (reg_bundler b)) /\
     o_modifyWebpackConfig o = Some (modifyWebpackConfig (reg_bundler b)) /\
     o_modifyViteConfig o = None).
Proof.
  intros Hv Hm Hmpa Hr Hrm Hbo Ham Hma Hmk Hms Hpr Hmd Hwr Hb.
  destruct (run (reg_bundler b) env api d) as [r s'] eqn:Hrun.
  unfold_run Hrun. rewrite Hv, Hm, Hmpa in Hrun. cbv iota in Hrun.
  repeat step_run Hrun.
  all: try discriminate.
  all: repeat match goal with
       | E : build _ _ = _ |- _ => rewrite Hb in E
       | E : rimraf_sync _ _ = _ |- _ => tryif constr_eq E Hrm then fail else rewrite Hrm in E
       | E : getAssetsMap _ _ _ = _ |- _ => rewrite Ham in E
       | E : getMarkup _ _ = _ |- _ => rewrite Hmk in E
       | E : measureFileSizesBeforeBuild _ _ = _ |- _ => rewrite Hms in E
       | E : printFileSizesAfterBuild _ _ _ _ = _ |- _ => rewrite Hpr in E
       | E : fs_mkdirp _ _ = _ |- _ => rewrite Hmd in E
       | E : fs_write _ _ _ = _ |- _ => rewrite Hwr in E
       | E : Ok _ = Ok _ |- _ => injection E as E; subst
       | E : Ok _ = Err _ |- _ => discriminate E
       | E : Err _ = Ok _ |- _ => discriminate E
       end.
  repeat match goal with u : unit |- _ => destruct u end.
  cbn. split; [reflexivity | split; [reflexivity | split; [reflexivity |]]].
  eexists. split; [reflexivity |].
  unfold compose_opts, react_runtime, shouldUseAutomaticRuntime. cbn.
  rewrite Hr, Hv. repeat split.
Qed.

Lemma C3_end_to_end_witness :
  fst (run (reg_bundler backend0) env0 api17 []) = Ok tt /\
  writes (trace (snd (run (reg_bundler backend0) env0 api17 []))) =
    [(path_resolve env0 (absOutputPath api17) "index.html", "<html></html>")] /\
  length (reports (trace (snd (run (reg_bundler backend0) env0 api17 [])))) = 1 /\
  (exists o, builds (trace (snd (run (reg_bundler backend0) env0 api17 []))) = [o] /\
     o_react_runtime o = "automatic" /\
     o_babelPreset o = Some (JStr "babel-preset-umi") /\
     o_chainWebpack o = Some (chainWebpack (reg_bundler backend0)) /\
     o_modifyWebpackConfig o = Some (modifyWebpackConfig (reg_bundler backend0)) /\
     o_modifyViteConfig o = None).
Proof.
  apply (C3_end_to_end env0 backend0 api17 [] (mk_babel_opts (JStr "babel-preset-umi") [] [] [] [])
           [("umi.js", ["/umi.js"]); ("umi.css", ["/umi.css"])]
           (mk_markup_args [] [] JUndef "/") "<html></html>" [] (JStr "stats"));
    first [reflexivity | intros; reflexivity].
Defined.

(** ** The default HTML document *)

(** C4: outside multi-page mode and with no [modifyExportHTMLFiles]
    handler, the stage yields the single document [index.html] whose
    content is the markup rendered from the final markup arguments; the
    only file written is that document, at [index.html] resolved against
    the output path, after its parent directory has been created. *)
Theorem C4_default_html_file (reg : Registry) (env : Env) (api : Api) (opts : Opts)
    (stats : jsval) (s : St) (am : AssetsMap) (ma : MarkupArgs) (html : string) :
  truthy (c_mpa (config api)) = false ->
  h_modifyExportHTMLFiles reg = [] ->
  (forall st pp, getAssetsMap env st pp = Ok am) ->
  getMarkupArgs env = Ok ma ->
  getMarkup env (finalMarkUpArgs api opts
                   (if truthy (c_vite (config api)) then [] else am) ma (args_vite api)) = Ok html ->
  (forall p, fs_mkdirp env p = Ok tt) ->
  (forall p c, fs_write env p c = Ok tt) ->
  html_stage reg env api opts stats s =
    (Ok [mk_html_file "index.html" html],
     mk_st (trace s ++
            (if truthy (c_vite (config api)) then []
             else [mk_event (OpCall "getAssetsMap") None]) ++
            [mk_event (OpCall "getMarkupArgs") None;
             mk_event (OpCall "getMarkup") None;
             mk_event (OpApply "modifyExportHTMLFiles"
                         (PExportHTML [mk_html_file "index.html" html]
                            (finalMarkUpArgs api opts
                               (if truthy (c_vite (config api)) then [] else am) ma
                               (args_vite api)))) None;
             mk_event (OpMkdirp (path_dirname env
                                   (path_resolve env (absOutputPath api) "index.html"))) None;
             mk_event (OpWrite (path_resolve env (absOutputPath api) "index.html") html) None;
             mk_event (OpLog "Build index.html") None])
       (disk_write (path_resolve env (absOutputPath api) "index.html") html (disk s))).
Proof.
  intros Hmpa Hx Ham Hma Hmk Hmd Hwr. destruct s as [t0 d0].
  destruct (html_stage reg env api opts stats (mk_st t0 d0)) as [r s'] eqn:H.
  unfold html_stage, applyModify, log in H. rewrite Hmpa, Hx in H. cbn [negb] in H.
  cbv zeta in H.
  repeat step_run H.
  all: repeat match goal with
       | E : getAssetsMap _ _ _ = _ |- _ => rewrite Ham in E
       | E : fs_mkdirp _ _ = _ |- _ => rewrite Hmd in E
       | E : fs_write _ _ _ = _ |- _ => rewrite Hwr in E
       | E : getMarkup _ _ = _ |- _ =>
           tryif constr_eq E Hmk then fail else rewrite Hmk in E
       | E : Ok _ = Ok _ |- _ => injection E as E; subst
       | E : Ok _ = Err _ |- _ => discriminate E
       | E : Err _ = Ok _ |- _ => discriminate E
       end.
  all: repeat match goal with u : unit |- _ => destruct u end.
  all: cbn; rewrite <- ?app_assoc; reflexivity.
Qed.

Lemma C4_default_html_file_witness :
  html_stage (reg_bundler backend0) env0 api17
    (compose_opts (reg_bundler backend0) api17
       (mk_babel_opts (JStr "babel-preset-umi") [] [] [] []) [])
    (JStr "stats") (mk_st [] []) =
    (Ok [mk_html_file "index.html" "<html></html>"],
     mk_st ([] ++ [mk_event (OpCall "getAssetsMap") None] ++
            [mk_event (OpCall "getMarkupArgs") None;
             mk_event (OpCall "getMarkup") None;
             mk_event (OpApply "modifyExportHTMLFiles"
                         (PExportHTML [mk_html_file "index.html" "<html></html>"]
                            (finalMarkUpArgs api17
                               (compose_opts (reg_bundler backend0) api17
                                  (mk_babel_opts (JStr "babel-preset-umi") [] [] [] []) [])
                               [("umi.js", ["/umi.js"]); ("umi.css", ["/umi.css"])]
                               (mk_markup_args [] [] JUndef "/") JUndef))) None;
             mk_event (OpMkdirp (str_dirname "/app/dist/index.html")) None;
             mk_event (OpWrite "/app/dist/index.html" "<html></html>") None;
             mk_event (OpLog "Build index.html") None])
       (disk_write "/app/dist/index.html" "<html></html>" [])).
Proof.
  apply (C4_default_html_file (reg_bundler backend0) env0 api17
           (compose_opts (reg_bundler backend0) api17
              (mk_babel_opts (JStr "babel-preset-umi") [] [] [] []) [])
           (JStr "stats") (mk_st [] [])
           [("umi.js", ["/umi.js"]); ("umi.css", ["/umi.css"])]
           (mk_markup_args [] [] JUndef "/") "<html></html>");
    first [reflexivity | intros; reflexivity].
Defined.

(** ** The [esmScript] flag *)

(** C7 (claim as stated): with [api.config.esm] and [args.vite] both
    unset, a [modifyUniBundlerOpts] handler that sets [config.esm] still
    makes [esmScript] true: the flag is read from the options after that
    dispatch, not from the configuration. *)
Lemma C7_counterexample :
  map ma_esmScript (export_markup_args (trace (snd (run reg_esm env0 api17 [])))) = [JBool true] /\
  truthy (c_esm (config api17)) = false /\
  truthy (args_vite api17) = false.
Proof. vm_compute. repeat split. Qed.

(** C7 (as the code has it): [esmScript] is [!!opts.config.esm || vite]
    with [opts] the options returned by [modifyUniBundlerOpts]: [true]
    when their [config.esm] is truthy and otherwise the [vite] argument
    itself, so it is truthy exactly when one of the two is; before any
    handler runs, [opts.config.esm] is [api.config.esm]. *)
Theorem C7_esmScript (api : Api) (opts : Opts) (am : AssetsMap) (args : MarkupArgs)
    (vite : jsval) :
  ma_esmScript (finalMarkUpArgs api opts am args vite) =
    (if truthy (oc_esm (o_config opts)) then JBool true else vite) /\
  (truthy (ma_esmScript (finalMarkUpArgs api opts am args vite)) = true <->
   truthy (oc_esm (o_config opts)) = true \/ truthy vite = true) /\
  (forall reg bo entry, oc_esm (o_config (compose_opts reg api bo entry)) = c_esm (config api)).
Proof.
  unfold finalMarkUpArgs, js_or. cbn.
  destruct (truthy (oc_esm (o_config opts))); cbn.
  - repeat split; auto.
  - split; [reflexivity | split].
    + split; [intros H; right; exact H | intros [H | H]; [discriminate H | exact H]].
    + intros; reflexivity.
Qed.

(** C9 (claim as stated): the [files] argument of the [onGenerateFiles]
    dispatch is [null] ([opts.files || null] with [files] omitted), not
    an empty list. *)
Lemma C9_counterexample :
  dispatches_of "onGenerateFiles" (trace (snd (run (reg_bundler backend0) env0 api17 []))) =
    [mk_event (OpApply "onGenerateFiles" (PGenerate (mk_generate_args None true))) None] /\
  mk_generate_args None true <> mk_generate_args (Some []) true.
Proof. split; [vm_compute; reflexivity | discriminate]. Qed.

(** ** Further properties of the command *)

(** *** The write loop *)

Lemma write_html_files_ok (env : Env) (api : Api) (files : list HtmlFile) (s s1 : St) :
  write_html_files env api files s = (Ok tt, s1) <->
  files_ok env api files /\
  s1 = mk_st (trace s ++ write_events env api files) (write_disk env api files (disk s)).
Proof.
  revert s. induction files as [| f files IH]; intros s; cbn [write_html_files files_ok write_events write_disk].
  - unfold ret. rewrite app_nil_r. destruct s. split.
    + intros H; injection H as <-. split; [exact I | reflexivity].
    + intros [_ ->]. reflexivity.
  - unfold log. rewrite !bind_prim.
    destruct (fs_mkdirp env _) as [[] | e] eqn:E1.
    + destruct (fs_write env _ _) as [[] | e] eqn:E2.
      * cbn [trace disk]. split.
        -- intros H. apply IH in H. destruct H as [Hok ->]. cbn [trace disk].
           split; [repeat split; assumption | rewrite <- !app_assoc; reflexivity].
        -- intros [[_ [_ Hok]] ->]. apply IH. cbn [trace disk].
           split; [exact Hok | rewrite <- !app_assoc; reflexivity].
      * split; [intros H; discriminate H | intros [[_ [H _]] _]; discriminate H].
    + split; [intros H; discriminate H | intros [[H _] _]; discriminate H].
Qed.

Lemma writes_write_events (env : Env) (api : Api) (files : list HtmlFile) :
  writes (write_events env api files) =
    map (fun f => (path_resolve env (absOutputPath api) (hf_path f), hf_content f)) files.
Proof.
  unfold writes. induction files as [| f files IH]; [reflexivity |].
  cbn [write_events map flat_map app]. rewrite IH. reflexivity.
Qed.


(** *** Successful runs *)

Lemma run_ok_shape (reg : Registry) (env : Env) (api : Api) (d : Disk) (s' : St) :
  run reg env api d = (Ok tt, s') ->
  exists bo entry opts b stats sizes final content files,
    getBabelOpts env = Ok bo /\
    modify_fold (h_modifyEntry reg) [("umi", path_join env (absTmpPath api) "umi.ts")] JUndef
      = Ok entry /\
    modify_fold (h_modifyUniBundlerOpts reg) (compose_opts reg api bo entry)
      (appData_bundler api) = Ok opts /\
    modify_fold (h_modifyUniBundler reg) None (appData_bundler api, opts) = Ok (Some b) /\
    build b opts = Ok stats /\
    (truthy (c_mpa (config api)) = true -> files = []) /\
    (truthy (c_mpa (config api)) = false ->
       (exists am ma, final = finalMarkUpArgs api opts
                                (if truthy (c_vite (config api)) then [] else am) ma
                                (args_vite api) /\
                      getMarkup env final = Ok content) /\
       modify_fold (h_modifyExportHTMLFiles reg) [mk_html_file "index.html" content] final
         = Ok files) /\
    trace s' = ok_trace env api [("umi", path_join env (absTmpPath api) "umi.ts")]
                 (compose_opts reg api bo entry) opts stats sizes final content files /\
    rimraf_sync env (absTmpPath api) = Ok tt.
Proof.
  intros H. remember (@Ok unit tt) as r eqn:Hr in H.
  unfold ok_trace, measure_events, html_events.
  unfold_run H.
  repeat step_run H.
  all: try discriminate.
  all: repeat match goal with
       | u : unit |- _ => destruct u
       | W : write_html_files _ _ _ _ = (Ok tt, _) |- _ =>
           apply write_html_files_ok in W; destruct W as [_ ->]
       | E : match ?a with Some _ => _ | None => _ end = Ok _ |- _ =>
           destruct a; [| discriminate E]
       end.
  all: cbn [trace disk].
  all: lazymatch goal with
       | E1 : getBabelOpts _ = Ok ?bo, E2 : modify_fold (h_modifyEntry _) _ _ = Ok ?en,
         E4 : modify_fold (h_modifyUniBundlerOpts _) _ _ = Ok ?o,
         E6 : build ?b _ = Ok ?st |- _ => exists bo, en, o, b, st
       end.
  all: first [ match goal with E : measureFileSizesBeforeBuild _ _ = Ok ?sz |- _ => exists sz end
             | exists [] ].
  all: first [ match goal with
               | E : getMarkup _ ?fin = Ok ?c,
                 E' : modify_fold (h_modifyExportHTMLFiles _) _ _ = Ok ?fs |- _ =>
                   exists fin, c, fs
               end
             | exists (mk_markup_args [] [] JUndef "/"), "", [] ].
  all: repeat match goal with |- _ /\ _ => split end.
  all: try (rewrite <- ?app_assoc; cbn [app]; reflexivity).
  all: try reflexivity.
  all: try eassumption.
  all: intros Hm.
  all: try (rewrite Hm in *; discriminate).
  all: try reflexivity.
  all: split; [| eassumption].
  all: first [ match goal with E : getAssetsMap _ _ _ = Ok ?am |- _ => exists am end
             | exists [] ].
  all: match goal with E : getMarkupArgs _ = Ok ?ma |- _ => exists ma end.
  all: split; [reflexivity | eassumption].
Qed.

Lemma flat_map_write_events {X : Type} (F : event -> list X) (env : Env) (api : Api)
    (files : list HtmlFile) :
  (forall ev, is_fs_or_log ev = true -> F ev = []) ->
  flat_map F (write_events env api files) = [].
Proof.
  intros HF. induction files as [| f files IH]; [reflexivity |].
  cbn [write_events flat_map]. rewrite !HF by reflexivity. exact IH.
Qed.

Ltac ok_trace_compute :=
  unfold ok_trace, measure_events, html_events;
  destruct (truthy (c_vite (config _))), (truthy (c_mako (config _))),
    (truthy (c_mpa (config _)));
  cbn [negb andb]; rewrite ?flat_map_app;
  rewrite ?flat_map_write_events
    by (intros [[] ?] ?; first [discriminate | reflexivity]).

(** X6: a run that completes issues exactly these hook dispatches, in
    this order: [onCheckPkgJSON], [onGenerateFiles], [modifyEntry],
    [onBeforeCompiler], [modifyUniBundlerOpts], [modifyUniBundler], then
    [modifyExportHTMLFiles] unless [config.mpa] is set, and last
    [onBuildHtmlComplete]. *)
Theorem X_dispatch_order (reg : Registry) (env : Env) (api : Api) (d : Disk) (s' : St) :
  run reg env api d = (Ok tt, s') ->
  dispatched (trace s') =
    ["onCheckPkgJSON"; "onGenerateFiles"; "modifyEntry"; "onBeforeCompiler";
     "modifyUniBundlerOpts"; "modifyUniBundler"] ++
    (if truthy (c_mpa (config api)) then [] else ["modifyExportHTMLFiles"]) ++
    ["onBuildHtmlComplete"].
Proof.
  intros H.
  destruct (run_ok_shape reg env api d s' H)
    as [bo [entry [opts [b [stats [sizes [final [content [files [_ [_ [_ [_ [_ [_ [_ [Htr _]]]]]]]]]]]]]]]]].
  unfold dispatched. rewrite Htr. unfold ok_trace, measure_events, html_events.
  ok_trace_compute; reflexivity.
Qed.

Ltac shape H :=
  let bo := fresh "bo" in let entry := fresh "entry" in let opts := fresh "opts" in
  let b := fresh "b" in let stats := fresh "stats" in let sizes := fresh "sizes" in
  let final := fresh "final" in let content := fresh "content" in
  let files := fresh "files" in
  destruct (run_ok_shape _ _ _ _ _ H)
    as [bo [entry [opts [b [stats [sizes [final [content [files
         [?Hbo [?Hen [?Hopts [?Hb [?Hbuild [?Hmpa [?Hhtml [?Htr ?Hrm]]]]]]]]]]]]]]]]].

(** X7: in a run that completes, [modifyEntry] is seeded with
    [{ umi: join(absTmpPath, 'umi.ts') }], [onBeforeCompiler] sees the
    options composed from the babel options and that dispatch's entry,
    and the options returned by [modifyUniBundlerOpts] are the ones
    passed both to [modifyUniBundler] and to the single
    [bundler.build] call. *)
Theorem X_options_flow (reg : Registry) (env : Env) (api : Api) (d : Disk) (s' : St) :
  run reg env api d = (Ok tt, s') ->
  exists bo entry opts,
    getBabelOpts env = Ok bo /\
    modify_fold (h_modifyEntry reg) [("umi", path_join env (absTmpPath api) "umi.ts")] JUndef
      = Ok entry /\
    modify_fold (h_modifyUniBundlerOpts reg) (compose_opts reg api bo entry)
      (appData_bundler api) = Ok opts /\
    payloads_of "modifyEntry" (trace s') =
      [PEntry [("umi", path_join env (absTmpPath api) "umi.ts")]] /\
    payloads_of "onBeforeCompiler" (trace s') =
      [PBeforeCompiler (appData_bundler api) (compose_opts reg api bo entry)] /\
    payloads_of "modifyUniBundler" (trace s') = [PUniBundler (appData_bundler api) opts] /\
    builds (trace s') = [opts].
Proof.
  intros H. shape H. exists bo, entry, opts.
  repeat split; try assumption; rewrite Htr; unfold payloads_of, builds;
    ok_trace_compute; reflexivity.
Qed.

(** X8: in a run that completes, [onBuildHtmlComplete] receives the
    built options with [htmlFiles] set to exactly the documents written
    to disk, each at its path resolved against [absOutputPath], in
    order; in multi-page mode that list is empty. *)
Theorem X_html_files_announced (reg : Registry) (env : Env) (api : Api) (d : Disk) (s' : St) :
  run reg env api d = (Ok tt, s') ->
  exists opts files,
    builds (trace s') = [opts] /\
    payloads_of "onBuildHtmlComplete" (trace s') = [PHtmlComplete (set_htmlFiles opts files)] /\
    writes (trace s') =
      map (fun f => (path_resolve env (absOutputPath api) (hf_path f), hf_content f)) files /\
    (truthy (c_mpa (config api)) = true -> files = []).
Proof.
  intros H. shape H. exists opts, files.
  split; [| split; [| split]]; try assumption; rewrite Htr.
  - unfold builds; ok_trace_compute; reflexivity.
  - unfold payloads_of; ok_trace_compute; reflexivity.
  - destruct (truthy (c_mpa (config api))) eqn:Em.
    + rewrite (Hmpa eq_refl). unfold writes; ok_trace_compute; reflexivity.
    + unfold ok_trace, measure_events, html_events. rewrite Em.
      destruct (truthy (c_vite (config api))), (truthy (c_mako (config api)));
        cbn [negb andb]; unfold writes; rewrite ?flat_map_app;
        fold (writes (write_events env api files)); rewrite writes_write_events;
        cbn; rewrite ?app_nil_r; reflexivity.
Qed.

(** X9: in a run that completes, the size report is printed once, for
    the folder [resolve(opts.cwd, opts.config.outputPath ||
    DEFAULT_OUTPUT_PATH)] of the built options, and the measurement is
    taken on that same folder; with [vite] or [mako] configured, neither
    happens. *)
Theorem X_measure_folder (reg : Registry) (env : Env) (api : Api) (d : Disk) (s' : St) :
  run reg env api d = (Ok tt, s') ->
  exists opts,
    builds (trace s') = [opts] /\
    measured (trace s') = reports (trace s') /\
    reports (trace s') =
      (if truthy (c_vite (config api)) || truthy (c_mako (config api)) then []
       else [path_resolve env (o_cwd opts)
               (str_or (oc_outputPath (o_config opts)) (DEFAULT_OUTPUT_PATH env))]).
Proof.
  intros H. shape H. exists opts.
  split; [| split]; rewrite Htr; unfold builds, measured, reports; ok_trace_compute;
    reflexivity.
Qed.

(** *** Multi-page mode *)

(** X4: with [config.mpa] set, no run (successful or not) renders or
    writes an HTML document: no [getAssetsMap], [getMarkupArgs] or
    [getMarkup] call, no [modifyExportHTMLFiles] dispatch, no file
    written, and [onBuildHtmlComplete], when reached, is given
    [htmlFiles = []]. *)
Theorem X_mpa_no_html (reg : Registry) (env : Env) (api : Api) (d : Disk) :
  truthy (c_mpa (config api)) = true ->
  writes (trace (snd (run reg env api d))) = [] /\
  dispatches_of "modifyExportHTMLFiles" (trace (snd (run reg env api d))) = [] /\
  (forall name, In name ["getAssetsMap"; "getMarkupArgs"; "getMarkup"] ->
     ~ In name (op_names (trace (snd (run reg env api d))))) /\
  (forall pl out, In (mk_event (OpApply "onBuildHtmlComplete" pl) out)
                     (trace (snd (run reg env api d))) ->
     exists o, pl = PHtmlComplete o /\ o_htmlFiles o = []).
Proof.
  intros Hm. destruct (run reg env api d) as [r s'] eqn:H.
  unfold_run H. rewrite Hm in H. cbn [negb] in H.
  repeat step_run H.
  all: cbn [snd trace].
  all: split; [reflexivity | split; [reflexivity | split]].
  all: try (intros name Hn; split_in Hn; subst; cbn; intuition discriminate).
  all: intros pl out HIn; split_in HIn.
  all: injection HIn as <- _; eexists; split; reflexivity.
Qed.

(** *** Markup arguments *)

(** X3: with [config.vite] set, or when the assets map has neither a
    [umi.css] nor a [umi.js] entry, the final markup arguments keep the
    styles and scripts of [getMarkupArgs] unchanged; their path is
    always ['/']. *)
Theorem X_asset_merge_skipped (api : Api) (opts : Opts) (am : AssetsMap) (args : MarkupArgs)
    (vite : jsval) :
  truthy (c_vite (config api)) = true \/
    (assets_lookup "umi.css" am = None /\ assets_lookup "umi.js" am = None) ->
  ma_styles (finalMarkUpArgs api opts am args vite) = ma_styles args /\
  ma_scripts (finalMarkUpArgs api opts am args vite) = ma_scripts args /\
  ma_path (finalMarkUpArgs api opts am args vite) = "/".
Proof.
  intros H. unfold finalMarkUpArgs, asset_urls. cbn [ma_styles ma_scripts ma_path].
  destruct H as [H | [Hc Hj]].
  - rewrite H. rewrite app_nil_r. repeat split.
  - rewrite Hc, Hj. destruct (truthy (c_vite (config api))); cbn [map app];
      rewrite ?app_nil_r; repeat split.
Qed.

(** X1: the write loop over [htmlFiles] returns exactly when every
    [mkdirpSync] and [writeFileSync] it performs returns; it then
    creates each document's directory, writes the document at its path
    resolved against [absOutputPath] and logs it, in list order, and
    the files written are the documents of the list. *)
Theorem X_write_loop_ok (env : Env) (api : Api) (files : list HtmlFile) (s s1 : St) :
  (write_html_files env api files s = (Ok tt, s1) <->
   files_ok env api files /\
   s1 = mk_st (trace s ++ write_events env api files) (write_disk env api files (disk s))) /\
  writes (write_events env api files) =
    map (fun f => (path_resolve env (absOutputPath api) (hf_path f), hf_content f)) files.
Proof. split; [apply write_html_files_ok | apply writes_write_events]. Qed.

(** X5: a run that completes performs exactly the operations of
    [ok_trace], each of them returning: the log line, [rimraf] of
    [absTmpPath], the pre-check and generate dispatches, [getBabelOpts],
    [modifyEntry], [onBeforeCompiler], [modifyUniBundlerOpts],
    [modifyUniBundler], [build], the size measurement and report (unless
    [vite] or [mako]), the HTML stage (unless [mpa]) and
    [onBuildHtmlComplete]; in particular [rimraf.sync] returned and the
    backend came from a [modifyUniBundler] dispatch that returned one. *)
Theorem X_run_success_trace (reg : Registry) (env : Env) (api : Api) (d : Disk) (s' : St) :
  run reg env api d = (Ok tt, s') ->
  exists bo entry opts b stats sizes final content files,
    getBabelOpts env = Ok bo /\
    modify_fold (h_modifyEntry reg) [("umi", path_join env (absTmpPath api) "umi.ts")] JUndef
      = Ok entry /\
    modify_fold (h_modifyUniBundlerOpts reg) (compose_opts reg api bo entry)
      (appData_bundler api) = Ok opts /\
    modify_fold (h_modifyUniBundler reg) None (appData_bundler api, opts) = Ok (Some b) /\
    build b opts = Ok stats /\
    (truthy (c_mpa (config api)) = true -> files = []) /\
    (truthy (c_mpa (config api)) = false ->
       (exists am ma, final = finalMarkUpArgs api opts
                                (if truthy (c_vite (config api)) then [] else am) ma
                                (args_vite api) /\
                      getMarkup env final = Ok content) /\
       modify_fold (h_modifyExportHTMLFiles reg) [mk_html_file "index.html" content] final
         = Ok files) /\
    trace s' = ok_trace env api [("umi", path_join env (absTmpPath api) "umi.ts")]
                 (compose_opts reg api bo entry) opts stats sizes final content files /\
    rimraf_sync env (absTmpPath api) = Ok tt.
Proof. apply run_ok_shape. Qed.

(** *** A throwing [rimraf.sync] *)

(** X11: when [rimraf.sync(absTmpPath)] throws, the run fails with that
    error right after the version log: no hook is dispatched, nothing is
    built or written, and the disk is what the interrupted [rimraf.sync]
    left. *)
Theorem X_rimraf_failure (reg : Registry) (env : Env) (api : Api) (d : Disk) (e : exn) :
  rimraf_sync env (absTmpPath api) = Err e ->
  run reg env api d =
    (Err e, mk_st [mk_event (OpLog ("Umi v" ++ umi_version api)) None;
                   mk_event (OpRimraf (absTmpPath api)) (Some e)]
              (rimraf_partial env (absTmpPath api) d)).
Proof.
  intros He. unfold run, fn, log.
  rewrite bind_prim. cbv beta iota. rewrite bind_prim, He. reflexivity.
Qed.

(** *** Witnesses *)

Lemma run_api17_ok :
  run (reg_bundler backend0) env0 api17 [] =
    (Ok tt, snd (run (reg_bundler backend0) env0 api17 [])).
Proof. vm_compute. reflexivity. Qed.

Lemma X_rimraf_failure_witness :
  rimraf_sync env_rimraf_fails (absTmpPath api17) = Err (EThrown (JStr "EACCES")) /\
  run (reg_bundler backend0) env_rimraf_fails api17 [("/app/src/.umi/umi.ts", "x")] =
    (Err (EThrown (JStr "EACCES")),
     mk_st [mk_event (OpLog ("Umi v" ++ umi_version api17)) None;
            mk_event (OpRimraf (absTmpPath api17)) (Some (EThrown (JStr "EACCES")))]
       (rimraf_partial env_rimraf_fails (absTmpPath api17) [("/app/src/.umi/umi.ts", "x")])).
Proof.
  split; [reflexivity |].
  apply (X_rimraf_failure (reg_bundler backend0) env_rimraf_fails api17
           [("/app/src/.umi/umi.ts", "x")] (EThrown (JStr "EACCES"))).
  reflexivity.
Defined.


Lemma X_asset_merge_skipped_witness :
  ma_styles (finalMarkUpArgs api17 (with_esm (compose_opts (reg_bundler backend0) api17
               (mk_babel_opts (JStr "babel-preset-umi") [] [] [] []) []))
               [("vendor.js", ["/vendor.js"])]
               (mk_markup_args [mk_asset "/a.css"] [mk_asset "/b.js"] JUndef "/x") JUndef)
    = [mk_asset "/a.css"] /\
  ma_scripts (finalMarkUpArgs api17 (with_esm (compose_opts (reg_bundler backend0) api17
               (mk_babel_opts (JStr "babel-preset-umi") [] [] [] []) []))
               [("vendor.js", ["/vendor.js"])]
               (mk_markup_args [mk_asset "/a.css"] [mk_asset "/b.js"] JUndef "/x") JUndef)
    = [mk_asset "/b.js"] /\
  ma_path (finalMarkUpArgs api17 (with_esm (compose_opts (reg_bundler backend0) api17
               (mk_babel_opts (JStr "babel-preset-umi") [] [] [] []) []))
               [("vendor.js", ["/vendor.js"])]
               (mk_markup_args [mk_asset "/a.css"] [mk_asset "/b.js"] JUndef "/x") JUndef)
    = "/".
Proof.
  apply (X_asset_merge_skipped api17 (with_esm (compose_opts (reg_bundler backend0) api17
           (mk_babel_opts (JStr "babel-preset-umi") [] [] [] []) []))
           [("vendor.js", ["/vendor.js"])]
           (mk_markup_args [mk_asset "/a.css"] [mk_asset "/b.js"] JUndef "/x") JUndef).
  right. split; reflexivity.
Defined.

Lemma X_mpa_no_html_witness :
  truthy (c_mpa (config api_mpa)) = true /\
  writes (trace (snd (run (reg_bundler backend0) env0 api_mpa []))) = [] /\
  dispatches_of "modifyExportHTMLFiles" (trace (snd (run (reg_bundler backend0) env0 api_mpa [])))
    = [] /\
  (forall name, In name ["getAssetsMap"; "getMarkupArgs"; "getMarkup"] ->
     ~ In name (op_names (trace (snd (run (reg_bundler backend0) env0 api_mpa []))))) /\
  (forall pl out, In (mk_event (OpApply "onBuildHtmlComplete" pl) out)
                     (trace (snd (run (reg_bundler backend0) env0 api_mpa []))) ->
     exists o, pl = PHtmlComplete o /\ o_htmlFiles o = []).
Proof.
  split; [reflexivity |].
  apply (X_mpa_no_html (reg_bundler backend0) env0 api_mpa []). reflexivity.
Defined.

Lemma X_dispatch_order_witness :
  run (reg_bundler backend0) env0 api17 [] =
    (Ok tt, snd (run (reg_bundler backend0) env0 api17 [])) /\
  dispatched (trace (snd (run (reg_bundler backend0) env0 api17 []))) =
    ["onCheckPkgJSON"; "onGenerateFiles"; "modifyEntry"; "onBeforeCompiler";
     "modifyUniBundlerOpts"; "modifyUniBundler"] ++
    (if truthy (c_mpa (config api17)) then [] else ["modifyExportHTMLFiles"]) ++
    ["onBuildHtmlComplete"].
Proof.
  split; [exact run_api17_ok |].
  apply (X_dispatch_order _ _ _ _ _ run_api17_ok).
Defined.

Lemma X_options_flow_witness :
  run (reg_bundler backend0) env0 api17 [] =
    (Ok tt, snd (run (reg_bundler backend0) env0 api17 [])) /\
  exists bo entry opts,
    getBabelOpts env0 = Ok bo /\
    modify_fold (h_modifyEntry (reg_bundler backend0))
      [("umi", path_join env0 (absTmpPath api17) "umi.ts")] JUndef = Ok entry /\
    modify_fold (h_modifyUniBundlerOpts (reg_bundler backend0))
      (compose_opts (reg_bundler backend0) api17 bo entry) (appData_bundler api17) = Ok opts /\
    payloads_of "modifyEntry" (trace (snd (run (reg_bundler backend0) env0 api17 []))) =
      [PEntry [("umi", path_join env0 (absTmpPath api17) "umi.ts")]] /\
    payloads_of "onBeforeCompiler" (trace (snd (run (reg_bundler backend0) env0 api17 []))) =
      [PBeforeCompiler (appData_bundler api17) (compose_opts (reg_bundler backend0) api17 bo entry)] /\
    payloads_of "modifyUniBundler" (trace (snd (run (reg_bundler backend0) env0 api17 []))) =
      [PUniBundler (appData_bundler api17) opts] /\
    builds (trace (snd (run (reg_bundler backend0) env0 api17 []))) = [opts].
Proof.
  split; [exact run_api17_ok |].
  apply (X_options_flow _ _ _ _ _ run_api17_ok).
Defined.

Lemma X_html_files_announced_witness :
  run (reg_bundler backend0) env0 api17 [] =
    (Ok tt, snd (run (reg_bundler backend0) env0 api17 [])) /\
  exists opts files,
    builds (trace (snd (run (reg_bundler backend0) env0 api17 []))) = [opts] /\
    payloads_of "onBuildHtmlComplete" (trace (snd (run (reg_bundler backend0) env0 api17 []))) =
      [PHtmlComplete (set_htmlFiles opts files)] /\
    writes (trace (snd (run (reg_bundler backend0) env0 api17 []))) =
      map (fun f => (path_resolve env0 (absOutputPath api17) (hf_path f), hf_content f)) files /\
    (truthy (c_mpa (config api17)) = true -> files = []).
Proof.
  split; [exact run_api17_ok |].
  apply (X_html_files_announced _ _ _ _ _ run_api17_ok).
Defined.

Lemma X_measure_folder_witness :
  run (reg_bundler backend0) env0 api17 [] =
    (Ok tt, snd (run (reg_bundler backend0) env0 api17 [])) /\
  exists opts,
    builds (trace (snd (run (reg_bundler backend0) env0 api17 []))) = [opts] /\
    measured (trace (snd (run (reg_bundler backend0) env0 api17 []))) =
      reports (trace (snd (run (reg_bundler backend0) env0 api17 []))) /\
    reports (trace (snd (run (reg_bundler backend0) env0 api17 []))) =
      (if truthy (c_vite (config api17)) || truthy (c_mako (config api17)) then []
       else [path_resolve env0 (o_cwd opts)
               (str_or (oc_outputPath (o_config opts)) (DEFAULT_OUTPUT_PATH env0))]).
Proof.
  split; [exact run_api17_ok |].
  apply (X_measure_folder _ _ _ _ _ run_api17_ok).
Defined.

Lemma X_run_success_trace_witness :
  run (reg_bundler backend0) env0 api17 [] =
    (Ok tt, snd (run (reg_bundler backend0) env0 api17 [])) /\
  exists bo entry opts b stats sizes final content files,
    getBabelOpts env0 = Ok bo /\
    modify_fold (h_modifyEntry (reg_bundler backend0))
      [("umi", path_join env0 (absTmpPath api17) "umi.ts")] JUndef = Ok entry /\
    modify_fold (h_modifyUniBundlerOpts (reg_bundler backend0))
      (compose_opts (reg_bundler backend0) api17 bo entry) (appData_bundler api17) = Ok opts /\
    modify_fold (h_modifyUniBundler (reg_bundler backend0)) None (appData_bundler api17, opts)
      = Ok (Some b) /\
    build b opts = Ok stats /\
    (truthy (c_mpa (config api17)) = true -> files = []) /\
    (truthy (c_mpa (config api17)) = false ->
       (exists am ma, final = finalMarkUpArgs api17 opts
                                (if truthy (c_vite (config api17)) then [] else am) ma
                                (args_vite api17) /\
                      getMarkup env0 final = Ok content) /\
       modify_fold (h_modifyExportHTMLFiles (reg_bundler backend0))
         [mk_html_file "index.html" content] final = Ok files) /\
    trace (snd (run (reg_bundler backend0) env0 api17 [])) =
      ok_trace env0 api17 [("umi", path_join env0 (absTmpPath api17) "umi.ts")]
        (compose_opts (reg_bundler backend0) api17 bo entry) opts stats sizes final content files /\
    rimraf_sync env0 (absTmpPath api17) = Ok tt.
Proof.
  split; [exact run_api17_ok |].
  apply (X_run_success_trace _ _ _ _ _ run_api17_ok).
Defined.
